(** * digitalsitepro-backend: the HTTP handlers over the document store

    A shallow embedding of the Express handlers registered in [run()]
    (users, testimonial moderation, admin listing of proposals) together
    with the part of the MongoDB driver they call: [findOne], [find],
    [insertOne], [updateOne] with [upsert: true], [deleteOne] and the
    [ObjectId] constructor, and of the [filename] callback of the upload
    storage.

    A handler is a computation over the three collections that may throw;
    the [try { ... } catch] around every handler body turns a throw into
    the 500 response.  The model starts where the handler does, with the
    path parameter, the query parameter or the body [express.json()] has
    parsed, and covers the requests served while the database answers. *)

From Stdlib Require Import ZArith.
From Stdlib Require DecimalString DecimalN.
From stdpp Require Import base strings gmap list option.

Open Scope string_scope.
Open Scope list_scope.

(** ** Documents *)

(** The BSON values the handlers store and inspect.  Request bodies are
    parsed JSON, so their fields are [VNull], [VBool], [VNum] and [VStr];
    [VOid] is the driver's [ObjectId].  JSON numbers are modelled by
    integers, arrays and embedded documents are left out: the handlers only
    compare field values for equality and test them for truthiness. *)
Inductive value : Type :=
  | VNull
  | VBool (b : bool)
  | VNum (n : Z)
  | VStr (s : string)
  | VOid (hex : string).

#[global] Instance value_eq_dec : EqDecision value.
Proof. solve_decision. Defined.

(** A document (and a parsed JSON body) maps field names to values; a field
    that is absent reads as JavaScript's [undefined], here [None]. *)
Abbreviation document := (gmap string value).

(** JavaScript truthiness of [x] in [if (x)], with [None] for [undefined]. *)
Definition js_truthy (v : option value) : bool :=
  match v with
  | None => false
  | Some VNull => false
  | Some (VBool b) => b
  | Some (VNum n) => negb (Z.eqb n 0)
  | Some (VStr s) => negb (String.eqb s "")
  | Some (VOid _) => true
  end.

(** ** The driver *)

Module Mongo.

(** The query filters the handlers build. *)
Inductive filter : Type :=
  | FAll                                   (* {} *)
  | FEq (k : string) (q : option value)    (* { k: q } *)
  | FNotExists (k : string).               (* { k: { $exists: false } } *)

(** The driver serialises an [undefined] query value as [null], and a
    [null] query matches a field that is [null] or missing. *)
Definition matches (f : filter) (d : document) : bool :=
  match f with
  | FAll => true
  | FEq k (Some VNull) | FEq k None =>
      match d !! k with
      | None | Some VNull => true
      | Some _ => false
      end
  | FEq k (Some q) => bool_decide (d !! k = Some q)
  | FNotExists k => bool_decide (d !! k = None)
  end.

(** [collection.findOne(f)]: the first matching document in natural order,
    or [null]. *)
Definition findOne (f : filter) (c : list document) : option document :=
  List.find (matches f) c.

(** [collection.find(f).toArray()]. *)
Definition find (f : filter) (c : list document) : list document :=
  List.filter (matches f) c.

(** Whether some stored document already has [_id] equal to [v] (the
    collection's unique index on [_id]). *)
Definition id_in_use (v : value) (c : list document) : bool :=
  existsb (fun d => bool_decide (d !! "_id" = Some v)) c.

Record InsertOneResult := mkInsertOneResult { insertedId : value }.

(** [collection.insertOne(doc)].  A document that brings its own [_id] is
    stored as it is and rejected (a throw, [None]) when that [_id] is taken;
    otherwise the driver adds a generated [ObjectId], [fresh].  Generated
    ids are unique by construction and are taken from the environment. *)
Definition insertOne (fresh : string) (doc : document) (c : list document)
  : option (InsertOneResult * list document) :=
  match doc !! "_id" with
  | Some v =>
      if id_in_use v c then None
      else Some (mkInsertOneResult v, c ++ [doc])
  | None =>
      Some (mkInsertOneResult (VOid fresh), c ++ [<["_id" := VOid fresh]> doc])
  end.

Record UpdateResult := mkUpdateResult {
  matchedCount : nat;
  modifiedCount : nat;
  upsertedCount : nat;
  upsertedId : option value
}.

(** [{ $set: fields }] applied to a document: the given fields are written,
    every other field is kept. *)
Definition apply_set (fields d : document) : document := fields ∪ d.

(** Replace the first document matching [f] by the result of [$set]. *)
Fixpoint set_first (f : filter) (fields : document) (c : list document)
  : list document :=
  match c with
  | [] => []
  | d :: c' =>
      if matches f d then apply_set fields d :: c'
      else d :: set_first f fields c'
  end.

(** The document an upsert starts from: the equality conditions of the
    filter. *)
Definition filter_seed (f : filter) : document :=
  match f with
  | FEq k (Some q) => {[ k := q ]}
  | FEq k None => {[ k := VNull ]}
  | FAll | FNotExists _ => ∅
  end.

(** [collection.updateOne(f, { $set: fields }, { upsert: true })].

    When a document matches, the first one is updated; [modifiedCount] is 1
    only if the update changed it, and writing a different [_id] throws
    ([_id] is immutable).  When none matches, a new document is inserted,
    built from the filter's equality conditions and the [$set] fields, with
    a generated [_id] unless one of those supplies it; [upsertedCount] is 1.
    An empty [$set] is accepted as an update that changes nothing (servers
    that speak the stable API the client is configured with, [serverApi]
    version 1, do so). *)
Definition updateOne (fresh : string) (f : filter) (fields : document)
    (c : list document) : option (UpdateResult * list document) :=
  match findOne f c with
  | Some d =>
      match fields !! "_id" with
      | Some v =>
          if bool_decide (d !! "_id" = Some v) then
            Some (mkUpdateResult 1
                    (if bool_decide (apply_set fields d = d) then 0 else 1)
                    0 None,
                  set_first f fields c)
          else None
      | None =>
          Some (mkUpdateResult 1
                  (if bool_decide (apply_set fields d = d) then 0 else 1)
                  0 None,
                set_first f fields c)
      end
  | None =>
      let seeded := apply_set fields (filter_seed f) in
      match seeded !! "_id" with
      | Some v =>
          if id_in_use v c then None
          else Some (mkUpdateResult 0 0 1 (Some v), c ++ [seeded])
      | None =>
          Some (mkUpdateResult 0 0 1 (Some (VOid fresh)),
                c ++ [<["_id" := VOid fresh]> seeded])
      end
  end.

Record DeleteResult := mkDeleteResult { deletedCount : nat }.

(** Remove the first document matching [f]. *)
Fixpoint remove_first (f : filter) (c : list document) : list document :=
  match c with
  | [] => []
  | d :: c' => if matches f d then c' else d :: remove_first f c'
  end.

(** [collection.deleteOne(f)]. *)
Definition deleteOne (f : filter) (c : list document)
  : DeleteResult * list document :=
  match findOne f c with
  | Some _ => (mkDeleteResult 1, remove_first f c)
  | None => (mkDeleteResult 0, c)
  end.

End Mongo.

(** ** [new ObjectId(id)] *)

Definition is_hex_digit (a : Ascii.ascii) : bool :=
  let n := Ascii.nat_of_ascii a in
  (((48 <=? n) && (n <=? 57)) || ((97 <=? n) && (n <=? 102))
   || ((65 <=? n) && (n <=? 70)))%nat.

Fixpoint all_hex (s : string) : bool :=
  match s with
  | EmptyString => true
  | String a s' => is_hex_digit a && all_hex s'
  end.

Definition hex_lower (a : Ascii.ascii) : Ascii.ascii :=
  let n := Ascii.nat_of_ascii a in
  if ((65 <=? n) && (n <=? 70))%nat then Ascii.ascii_of_nat (n + 32) else a.

Fixpoint hex_lower_string (s : string) : string :=
  match s with
  | EmptyString => EmptyString
  | String a s' => String (hex_lower a) (hex_lower_string s')
  end.

(** [id.length === 24 && /^[0-9a-fA-F]{24}$/.test(id)] *)
Definition is_hex24 (s : string) : bool :=
  (String.length s =? 24)%nat && all_hex s.

(** The constructor applied to a field of the parsed body.  A missing,
    [null] or numeric argument makes the driver generate an id ([fresh]);
    a string of 24 hexadecimal digits names the id it spells, whatever the
    case of its letters; any other string and a boolean throw.  (Drivers
    before bson 6 also took a 12-byte string; that form is not modelled.) *)
Definition ObjectId_new (fresh : string) (id : option value) : option value :=
  match id with
  | None | Some VNull | Some (VNum _) => Some (VOid fresh)
  | Some (VStr s) =>
      if is_hex24 s then Some (VOid (hex_lower_string s)) else None
  | Some (VOid h) => Some (VOid h)
  | Some (VBool _) => None
  end.

(** ** Handlers as computations over the database *)

Record db := mkDb {
  usersCollection : list document;
  testimonialCollection : list document;
  proposalsCollection : list document
}.

(** A computation reads and writes the collections and either returns a
    value or throws; what it wrote before a throw stays written. *)
Definition M (A : Type) : Type := db -> option A * db.

Definition ret {A} (a : A) : M A := fun s => (Some a, s).

Definition bind {A B} (m : M A) (k : A -> M B) : M B :=
  fun s =>
    match m s with
    | (Some a, s') => k a s'
    | (None, s') => (None, s')
    end.

Notation "'let!' x ':=' m 'in' k" := (bind m (fun x => k))
  (at level 10, x name, m at level 100, k at level 200).

(** [await usersCollection.op(...)] for an operation that only reads. *)
Definition users_read {A} (op : list document -> A) : M A :=
  fun s => (Some (op (usersCollection s)), s).

(** [await usersCollection.op(...)] for an operation that writes or throws. *)
Definition users_write {A}
    (op : list document -> option (A * list document)) : M A :=
  fun s =>
    match op (usersCollection s) with
    | Some (a, c) =>
        (Some a, mkDb c (testimonialCollection s) (proposalsCollection s))
    | None => (None, s)
    end.

Definition testimonial_read {A} (op : list document -> A) : M A :=
  fun s => (Some (op (testimonialCollection s)), s).

Definition testimonial_write {A}
    (op : list document -> option (A * list document)) : M A :=
  fun s =>
    match op (testimonialCollection s) with
    | Some (a, c) =>
        (Some a, mkDb (usersCollection s) c (proposalsCollection s))
    | None => (None, s)
    end.

Definition proposals_read {A} (op : list document -> A) : M A :=
  fun s => (Some (op (proposalsCollection s)), s).

(** A synchronous call that may throw, such as a constructor. *)
Definition lift {A} (o : option A) : M A := fun s => (o, s).

(** The JSON bodies the handlers send. *)
Inductive json : Type :=
  | JMessage (m : string)                    (* { message: m } *)
  | JError (e : string)                      (* { error: e } *)
  | JAdmin (b : bool)                        (* { admin: b } *)
  | JPhoneNumber (v : option value)          (* { phoneNumber: v } *)
  | JDocuments (l : list document)           (* an array of documents *)
  | JInsertResult (r : Mongo.InsertOneResult)
  | JUpdateResult (r : Mongo.UpdateResult).

(** [res.status(code).json(body)] *)
Record response := mkResponse { status : nat; body : json }.

Definition internal_server_error : response :=
  mkResponse 500 (JMessage "Internal server error").

(** [try { ... } catch (error) { res.status(500).json(...) }] *)
Definition try_catch (m : M response) : db -> response * db :=
  fun s =>
    match m s with
    | (Some r, s') => (r, s')
    | (None, s') => (internal_server_error, s')
    end.

(** [user?.role === "admin"] *)
Definition is_admin (user : option document) : bool :=
  match user with
  | Some u => bool_decide (u !! "role" = Some (VStr "admin"))
  | None => false
  end.

(** [if (v) fields.k = v;] *)
Definition set_if_truthy (k : string) (v : option value) (fields : document)
  : document :=
  match v with
  | Some x => if js_truthy v then <[k := x]> fields else fields
  | None => fields
  end.

(** Every handler takes [fresh], the [ObjectId] the driver or the server
    generates next, should the request need one. *)
Section Handlers.

Variable fresh : string.

(** [app.post("/users")]: insert new user *)
Definition post_users (user : document) : db -> response * db :=
  try_catch (
    let! result := users_write (Mongo.insertOne fresh user) in
    ret (mkResponse 200 (JInsertResult result))).

(** [app.put("/users")]: update or insert user if it does not exist *)
Definition put_users (user : document) : db -> response * db :=
  try_catch (
    let filter := Mongo.FEq "email" (user !! "email") in
    let! result := users_write (Mongo.updateOne fresh filter user) in
    ret (mkResponse 200 (JUpdateResult result))).

(** [app.get("/users/:email")]: check if user is admin *)
Definition get_users_email (email : string) : db -> response * db :=
  try_catch (
    let query := Mongo.FEq "email" (Some (VStr email)) in
    let! user := users_read (Mongo.findOne query) in
    let isAdmin := is_admin user in
    ret (mkResponse 200 (JAdmin isAdmin))).

(** [app.get("/users/phone/:email")]: get user phone number *)
Definition get_users_phone_email (email : string) : db -> response * db :=
  try_catch (
    let! user :=
      users_read (Mongo.findOne (Mongo.FEq "email" (Some (VStr email)))) in
    match user with
    | None => ret (mkResponse 404 (JMessage "User not found"))
    | Some u =>
        if js_truthy (u !! "phoneNumber") then
          ret (mkResponse 200 (JPhoneNumber (u !! "phoneNumber")))
        else
          ret (mkResponse 404 (JMessage "User does not have a phone number"))
    end).

(** [app.post("/users/:email")]: update profile *)
Definition post_users_email (email : string) (body : document)
  : db -> response * db :=
  try_catch (
    let displayName := body !! "displayName" in
    let phoneNumber := body !! "phoneNumber" in
    let country := body !! "country" in
    let filter := Mongo.FEq "email" (Some (VStr email)) in
    let updateFields : document := ∅ in
    let updateFields := set_if_truthy "displayName" displayName updateFields in
    let updateFields := set_if_truthy "phoneNumber" phoneNumber updateFields in
    let updateFields := set_if_truthy "country" country updateFields in
    let! result := users_write (Mongo.updateOne fresh filter updateFields) in
    if (0 <? Mongo.modifiedCount result)%nat
       || (0 <? Mongo.upsertedCount result)%nat
    then ret (mkResponse 200 (JMessage "User updated successfully"))
    else ret (mkResponse 200 (JMessage "No changes made to the user"))).

(** [app.get("/testimonialapprove/:email")]: get testimonial for approval *)
Definition get_testimonialapprove_email (email : string)
  : db -> response * db :=
  try_catch (
    let query := Mongo.FEq "email" (Some (VStr email)) in
    let! user := users_read (Mongo.findOne query) in
    let isAdmin := is_admin user in
    if isAdmin then
      let! testimonials :=
        testimonial_read (Mongo.find (Mongo.FNotExists "approved")) in
      ret (mkResponse 200 (JDocuments testimonials))
    else ret (mkResponse 403 (JError "Forbidden"))).

(** [app.put("/testimonialapprove")]: approve testimonial *)
Definition put_testimonialapprove (body : document) : db -> response * db :=
  try_catch (
    let id := body !! "id" in
    let user_email := body !! "user_email" in
    let! user := users_read (Mongo.findOne (Mongo.FEq "email" user_email)) in
    if is_admin user then
      let! oid := lift (ObjectId_new fresh id) in
      let! result :=
        testimonial_write
          (Mongo.updateOne fresh (Mongo.FEq "_id" (Some oid))
             {[ "approved" := VBool true ]}) in
      if (Mongo.upsertedCount result =? 1)%nat
         || (Mongo.modifiedCount result =? 1)%nat
      then
        let! testimonials := testimonial_read (Mongo.find Mongo.FAll) in
        ret (mkResponse 200 (JDocuments testimonials))
      else ret (mkResponse 404 (JError "Testimonial not found."))
    else ret (mkResponse 403 (JError "Forbidden"))).

(** [app.delete("/testimonialapprove")]: delete testimonial *)
Definition delete_testimonialapprove (body : document)
  : db -> response * db :=
  try_catch (
    let id := body !! "id" in
    let user_email := body !! "user_email" in
    let! user := users_read (Mongo.findOne (Mongo.FEq "email" user_email)) in
    if is_admin user then
      let! oid := lift (ObjectId_new fresh id) in
      let! result :=
        testimonial_write
          (fun c => Some (Mongo.deleteOne (Mongo.FEq "_id" (Some oid)) c)) in
      if (Mongo.deletedCount result =? 1)%nat then
        let! testimonials := testimonial_read (Mongo.find Mongo.FAll) in
        ret (mkResponse 200 (JDocuments testimonials))
      else ret (mkResponse 404 (JError "Testimonial not found."))
    else ret (mkResponse 403 (JError "Forbidden"))).

(** [app.post("/testimonial")]: insert testimonial *)
Definition post_testimonial (testimonial : document) : db -> response * db :=
  try_catch (
    let! result := testimonial_write (Mongo.insertOne fresh testimonial) in
    ret (mkResponse 200 (JInsertResult result))).

(** [app.get("/makeproposal/:email")]: get proposals by user email *)
Definition get_makeproposal_email (email : string) : db -> response * db :=
  try_catch (
    let! proposals :=
      proposals_read (Mongo.find (Mongo.FEq "email" (Some (VStr email)))) in
    ret (mkResponse 200 (JDocuments proposals))).

(** [app.get("/makeproposal")]: all proposals if the user is an admin;
    [userEmail] is [req.query.email] *)
Definition get_makeproposal (userEmail : option value)
  : db -> response * db :=
  try_catch (
    let! user := users_read (Mongo.findOne (Mongo.FEq "email" userEmail)) in
    if is_admin user then
      let! proposals := proposals_read (Mongo.find Mongo.FAll) in
      ret (mkResponse 200 (JDocuments proposals))
    else
      ret (mkResponse 403
             (JMessage "Access denied. User is not an admin."))).

(** ** Routing *)

(** A request that reached one of the handlers above: method, path, and
    the path parameter, query parameter or parsed JSON body it reads. *)
Inductive request : Type :=
  | POST_users (body : document)
  | PUT_users (body : document)
  | GET_users_email (email : string)
  | GET_users_phone_email (email : string)
  | POST_users_email (email : string) (body : document)
  | GET_testimonialapprove_email (email : string)
  | PUT_testimonialapprove (body : document)
  | DELETE_testimonialapprove (body : document)
  | POST_testimonial (body : document)
  | GET_makeproposal_email (email : string)
  | GET_makeproposal (email : option value).

Definition handle (r : request) : db -> response * db :=
  match r with
  | POST_users b => post_users b
  | PUT_users b => put_users b
  | GET_users_email e => get_users_email e
  | GET_users_phone_email e => get_users_phone_email e
  | POST_users_email e b => post_users_email e b
  | GET_testimonialapprove_email e => get_testimonialapprove_email e
  | PUT_testimonialapprove b => put_testimonialapprove b
  | DELETE_testimonialapprove b => delete_testimonialapprove b
  | POST_testimonial b => post_testimonial b
  | GET_makeproposal_email e => get_makeproposal_email e
  | GET_makeproposal e => get_makeproposal e
  end.

End Handlers.

(** The email an admin-gated endpoint takes its requester from; [None] for
    the endpoints that check no role. *)
Definition requester (r : request) : option (option value) :=
  match r with
  | GET_testimonialapprove_email e => Some (Some (VStr e))
  | PUT_testimonialapprove b => Some (b !! "user_email")
  | DELETE_testimonialapprove b => Some (b !! "user_email")
  | GET_makeproposal e => Some e
  | _ => None
  end.

(** ** Vocabulary of the statements *)

(** A user document as clients send it: the email is a string and the
    [_id] is left to the database. *)
Definition valid_user (u : document) (email : string) : Prop :=
  u !! "email" = Some (VStr email) ∧ u !! "_id" = None.

(** At most one stored user carries [email]. *)
Definition unique_email (email : string) (users : list document) : Prop :=
  (length (Mongo.find (Mongo.FEq "email" (Some (VStr email))) users) ≤ 1)%nat.

(** The role on record once [u] has been upserted over [previous], the
    document its email matched before (if any): [$set] writes the role [u]
    carries and keeps the old one otherwise. *)
Definition role_after_upsert (u : document) (previous : option document)
  : option value :=
  match u !! "role" with
  | Some r => Some r
  | None => previous ≫= (fun d => d !! "role")
  end.

(** ** Sample data *)

Module Sample.

Definition generated : string := "66b2f0a1c3d4e5f601234567".

Definition root_email : string := "root@digitalsitepro.com".
Definition client_email : string := "client@example.com".
Definition guest_email : string := "guest@example.com".
Definition newcomer_email : string := "newcomer@example.com".

Definition root : document :=
  {[ "_id" := VOid "65f1a2b3c4d5e6f708091a2b";
     "email" := VStr root_email;
     "role" := VStr "admin";
     "phoneNumber" := VStr "+8801700000000" ]}.

Definition client : document :=
  {[ "_id" := VOid "65f1a2b3c4d5e6f708091a2c";
     "email" := VStr client_email;
     "displayName" := VStr "Client";
     "phoneNumber" := VStr "" ]}.

Definition guest : document :=
  {[ "_id" := VOid "65f1a2b3c4d5e6f708091a2d";
     "email" := VStr guest_email ]}.

Definition pending : document :=
  {[ "_id" := VOid "65f2000000000000000000a1";
     "text" := VStr "Quick turnaround" ]}.

Definition approved : document :=
  {[ "_id" := VOid "65f2000000000000000000a2";
     "text" := VStr "Great service";
     "approved" := VBool true ]}.

Definition store : db := mkDb [root; client; guest] [pending; approved] [].

(** [{ id, user_email }] as the moderation endpoints read it. *)
Definition moderation (id : value) (user_email : string) : document :=
  {[ "id" := id; "user_email" := VStr user_email ]}.

(** The admin approves the testimonial that is approved already. *)
Definition approve_again : document :=
  moderation (VStr "65f2000000000000000000a2") root_email.

(** The admin names a well-formed id that is not stored. *)
Definition unknown_id : document :=
  moderation (VStr "65F2000000000000000000FF") root_email.

(** The admin sends an id that is not an [ObjectId] at all. *)
Definition malformed_id : document :=
  moderation (VStr "not-an-object-id") root_email.

(** The root user signs in again; the client sends no role. *)
Definition root_again : document :=
  {[ "email" := VStr root_email; "displayName" := VStr "Root" ]}.

(** A caller registers itself with the admin role. *)
Definition self_made_admin : document :=
  {[ "email" := VStr newcomer_email; "role" := VStr "admin" ]}.

End Sample.

(** ** Further vocabulary *)

(** The update document [POST /users/:email] builds from its body:
    [updateFields] after the three conditional assignments. *)
Definition profile_fields (body : document) : document :=
  set_if_truthy "country" (body !! "country")
    (set_if_truthy "phoneNumber" (body !! "phoneNumber")
       (set_if_truthy "displayName" (body !! "displayName") ∅)).

(** The fields [POST /users/:email] reads from its body. *)
Definition profile_field (k : string) : bool :=
  bool_decide (k = "displayName") || bool_decide (k = "phoneNumber")
  || bool_decide (k = "country").

(** The [_id]s of a collection, in stored order. *)
Definition ids (c : list document) : list (option value) :=
  (fun d => d !! "_id") <$> c.

(** No two stored documents share an [_id]. *)
Definition ids_unique (c : list document) : Prop := NoDup (ids c).

(** The three collections of [run()]. *)
Inductive collection : Type := Users | Testimonials | Proposals.

(** The collection the handler of a request calls a writing operation on
    ([insertOne], [updateOne], [deleteOne]); [None] for the handlers that
    only call [findOne] and [find]. *)
Definition written (r : request) : option collection :=
  match r with
  | POST_users _ | PUT_users _ | POST_users_email _ _ => Some Users
  | PUT_testimonialapprove _ | DELETE_testimonialapprove _
  | POST_testimonial _ => Some Testimonials
  | GET_users_email _ | GET_users_phone_email _
  | GET_testimonialapprove_email _ | GET_makeproposal_email _
  | GET_makeproposal _ => None
  end.

(** ** Upload file names *)

(** A non-negative integer as JavaScript prints it when it is concatenated
    to a string. *)
Definition decimal (n : N) : string :=
  DecimalString.NilEmpty.string_of_uint (N.to_uint n).

(** The [filename] callback of [multer.diskStorage]: [now] is [Date.now()]
    and [random] is [Math.round(Math.random() * 1e9)].

    [const uniqueSuffix = Date.now() + "-" + Math.round(Math.random() * 1e9);
     cb(null, file.fieldname + "-" + uniqueSuffix + "-" + file.originalname)] *)
Definition filename (fieldname : string) (now random : N)
    (originalname : string) : string :=
  let uniqueSuffix := decimal now +:+ "-" +:+ decimal random in
  fieldname +:+ "-" +:+ uniqueSuffix +:+ "-" +:+ originalname.

(** * Properties *)

(** ** The driver operations *)

Section DriverFacts.

Import Mongo.

Implicit Types (f : filter) (c : list document) (d u : document).

Lemma find_FAll c : find FAll c = c.
Proof.
  unfold find. induction c as [|d c IH]; simpl; [done | by rewrite IH].
Qed.

Lemma matches_FEq_str k s d :
  matches (FEq k (Some (VStr s))) d = bool_decide (d !! k = Some (VStr s)).
Proof. reflexivity. Qed.

Lemma matches_FEq_oid k h d :
  matches (FEq k (Some (VOid h))) d = bool_decide (d !! k = Some (VOid h)).
Proof. reflexivity. Qed.

(** No stored document has an [_id] that [findOne] cannot find. *)
Lemma findOne_id_None_unused h c :
  findOne (FEq "_id" (Some (VOid h))) c = None → id_in_use (VOid h) c = false.
Proof.
  unfold findOne, id_in_use.
  induction c as [|d c IH]; cbn [List.find existsb]; [done |].
  rewrite matches_FEq_oid. destruct (bool_decide _); [done | exact IH].
Qed.

Lemma apply_set_empty d : apply_set ∅ d = d.
Proof. unfold apply_set. by rewrite (left_id_L ∅ (∪)). Qed.

(** An empty [$set] leaves the collection as it is. *)
Lemma set_first_empty f c : set_first f ∅ c = c.
Proof.
  induction c as [|d c IH]; simpl; [done |].
  destruct (matches f d); [by rewrite apply_set_empty | by rewrite IH].
Qed.

(** After [$set], [findOne] returns the updated document, provided it
    still matches the filter. *)
Lemma findOne_set_first f u c d :
  findOne f c = Some d →
  matches f (apply_set u d) = true →
  findOne f (set_first f u c) = Some (apply_set u d).
Proof.
  unfold findOne. induction c as [|d' c IH]; simpl; [done |].
  destruct (matches f d') eqn:Hm.
  - intros [= ->] Hu. simpl. by rewrite Hu.
  - intros Hf Hu. simpl. rewrite Hm. by apply IH.
Qed.

(** A document appended to a collection in which nothing matched is the
    one [findOne] returns, if it matches. *)
Lemma findOne_app_None f c d :
  findOne f c = None →
  matches f d = true →
  findOne f (c ++ [d]) = Some d.
Proof.
  unfold findOne. induction c as [|d' c IH]; simpl.
  - intros _ ->. done.
  - destruct (matches f d'); [done | exact IH].
Qed.

(** The constructor only ever builds [ObjectId]s. *)
Lemma ObjectId_new_oid fresh id v :
  ObjectId_new fresh id = Some v → ∃ h, v = VOid h.
Proof.
  unfold ObjectId_new. intros H.
  destruct id as [[| |n|s|h]|]; simplify_eq; eauto.
  destruct (is_hex24 s); simplify_eq; eauto.
Qed.

End DriverFacts.

(** A database is determined by its three collections. *)
Lemma db_eta (s : db) :
  mkDb (usersCollection s) (testimonialCollection s) (proposalsCollection s)
  = s.
Proof. by destruct s. Qed.

(** Unfold a handler down to the driver calls it makes. *)
Ltac run_handler :=
  unfold try_catch, bind, ret, lift, users_read, users_write,
    testimonial_read, testimonial_write, proposals_read; simpl.

(** ** Admin flag *)

(** C6: for every email that matches no user document, [GET /users/:email]
    answers 200 with [{admin: false}] (neither 404 nor the 500 error
    response), and the database is left as it was. *)
Theorem getAdminFlag_unknown_email (email : string) (s : db) :
  Mongo.findOne (Mongo.FEq "email" (Some (VStr email))) (usersCollection s)
    = None →
  get_users_email email s = (mkResponse 200 (JAdmin false), s).
Proof.
  intros Hnone. unfold get_users_email. run_handler. by rewrite Hnone.
Qed.

Lemma getAdminFlag_unknown_email_witness :
  Mongo.findOne (Mongo.FEq "email" (Some (VStr Sample.newcomer_email)))
    (usersCollection Sample.store) = None
  ∧ get_users_email Sample.newcomer_email Sample.store
    = (mkResponse 200 (JAdmin false), Sample.store).
Proof.
  split; [vm_compute; reflexivity |].
  apply getAdminFlag_unknown_email. vm_compute; reflexivity.
Defined.

(** ** The admin gate *)

(** C5: a request to an admin-gated endpoint ([GET /testimonialapprove/:email],
    [PUT /testimonialapprove], [DELETE /testimonialapprove],
    [GET /makeproposal?email=]) whose requester email does not resolve to a
    user document with role ["admin"] is answered 403, whatever else the
    request carries; nothing is written. *)
Theorem non_admin_gets_403
    (fresh : string) (r : request) (q : option value) (s : db) :
  requester r = Some q →
  is_admin (Mongo.findOne (Mongo.FEq "email" q) (usersCollection s)) = false →
  status (fst (handle fresh r s)) = 403 ∧ snd (handle fresh r s) = s.
Proof.
  intros Hreq Hnot.
  destruct r; simpl in Hreq; simplify_eq; simpl;
    [ unfold get_testimonialapprove_email
    | unfold put_testimonialapprove
    | unfold delete_testimonialapprove
    | unfold get_makeproposal ];
    run_handler; by rewrite Hnot.
Qed.

Lemma non_admin_gets_403_witness :
  requester (DELETE_testimonialapprove
               (Sample.moderation (VStr "65f2000000000000000000a1")
                  Sample.client_email))
    = Some (Some (VStr Sample.client_email))
  ∧ status (fst (handle Sample.generated
                   (DELETE_testimonialapprove
                      (Sample.moderation (VStr "65f2000000000000000000a1")
                         Sample.client_email))
                   Sample.store)) = 403.
Proof.
  split; [vm_compute; reflexivity |].
  refine (proj1 (non_admin_gets_403 Sample.generated _
                   (Some (VStr Sample.client_email)) Sample.store _ _));
    vm_compute; reflexivity.
Defined.

(** ** Phone number *)

(** C8: [GET /users/phone/:email] tells its failures apart: no user
    document for the email gives 404 ["User not found"]; a user document
    without a phone number (the field is missing or holds a falsy value)
    gives 404 with the different message ["User does not have a phone
    number"]; a user document with a phone number gives 200 and
    [{phoneNumber}]. *)
Theorem getPhone_cases (email : string) (s : db) :
  let user :=
    Mongo.findOne (Mongo.FEq "email" (Some (VStr email))) (usersCollection s)
  in
  (user = None →
     get_users_phone_email email s
     = (mkResponse 404 (JMessage "User not found"), s))
  ∧ (∀ u, user = Some u → js_truthy (u !! "phoneNumber") = false →
       get_users_phone_email email s
       = (mkResponse 404 (JMessage "User does not have a phone number"), s))
  ∧ (∀ u p, user = Some u → u !! "phoneNumber" = Some p →
       js_truthy (Some p) = true →
       get_users_phone_email email s
       = (mkResponse 200 (JPhoneNumber (Some p)), s))
  ∧ "User not found" ≠ "User does not have a phone number".
Proof.
  intros user. subst user. unfold get_users_phone_email.
  repeat split.
  - intros Hu. run_handler. by rewrite Hu.
  - intros u Hu Hfalsy. run_handler. by rewrite Hu, Hfalsy.
  - intros u p Hu Hp Htruthy. run_handler. by rewrite Hu, Hp, Htruthy.
  - done.
Qed.

Lemma getPhone_cases_witness :
  get_users_phone_email Sample.newcomer_email Sample.store
  = (mkResponse 404 (JMessage "User not found"), Sample.store)
  ∧ get_users_phone_email Sample.guest_email Sample.store
    = (mkResponse 404 (JMessage "User does not have a phone number"),
       Sample.store)
  ∧ get_users_phone_email Sample.root_email Sample.store
    = (mkResponse 200 (JPhoneNumber (Some (VStr "+8801700000000"))),
       Sample.store).
Proof.
  split; [| split].
  - apply (proj1 (getPhone_cases Sample.newcomer_email Sample.store)).
    vm_compute; reflexivity.
  - refine (proj1 (proj2 (getPhone_cases Sample.guest_email _))
              Sample.guest _ _); vm_compute; reflexivity.
  - refine (proj1 (proj2 (proj2 (getPhone_cases Sample.root_email _)))
              Sample.root _ _ _ _); vm_compute; reflexivity.
Defined.

(** C10: [GET /users/phone/:email] decides by truthiness, not by the
    presence of the field: a user document whose [phoneNumber] is stored
    but falsy (the empty string, for one) gets 404 ["User does not have a
    phone number"], not 200 with the stored value. *)
Theorem getPhone_falsy_phone_is_404
    (email : string) (s : db) (u : document) (p : value) :
  Mongo.findOne (Mongo.FEq "email" (Some (VStr email))) (usersCollection s)
    = Some u →
  u !! "phoneNumber" = Some p →
  js_truthy (Some p) = false →
  get_users_phone_email email s
  = (mkResponse 404 (JMessage "User does not have a phone number"), s).
Proof.
  intros Hu Hp Hfalsy. unfold get_users_phone_email. run_handler.
  by rewrite Hu, Hp, Hfalsy.
Qed.

Lemma getPhone_falsy_phone_is_404_witness :
  Sample.client !! "phoneNumber" = Some (VStr "")
  ∧ get_users_phone_email Sample.client_email Sample.store
    = (mkResponse 404 (JMessage "User does not have a phone number"),
       Sample.store).
Proof.
  split; [vm_compute; reflexivity |].
  apply (getPhone_falsy_phone_is_404 _ _ Sample.client (VStr ""));
    vm_compute; reflexivity.
Defined.

(** ** Approving and deleting testimonials *)

Section ModerationFacts.

Import Mongo.

(** Setting [approved: true] changes a document unless it is there already. *)
Lemma set_approved_id (d : document) :
  apply_set {[ "approved" := VBool true ]} d = d ↔
  d !! "approved" = Some (VBool true).
Proof.
  unfold apply_set. rewrite <- insert_union_singleton_l. split.
  - intros <-. apply lookup_insert_eq.
  - apply insert_id.
Qed.

(** The update the approve handler issues, case by case. *)
Lemma updateOne_approve fresh h (c : list document) :
  updateOne fresh (FEq "_id" (Some (VOid h))) {[ "approved" := VBool true ]} c
  = match findOne (FEq "_id" (Some (VOid h))) c with
    | Some d =>
        Some (mkUpdateResult 1
                (if bool_decide (d !! "approved" = Some (VBool true))
                 then 0 else 1) 0 None,
              set_first (FEq "_id" (Some (VOid h)))
                {[ "approved" := VBool true ]} c)
    | None =>
        Some (mkUpdateResult 0 0 1 (Some (VOid h)),
              c ++ [ {[ "approved" := VBool true; "_id" := VOid h ]} ])
    end.
Proof.
  unfold updateOne.
  destruct (findOne _ c) as [d|] eqn:Hf.
  - rewrite lookup_singleton_ne by done.
    by rewrite (bool_decide_ext _ _ (set_approved_id d)).
  - cbn [filter_seed]. unfold apply_set.
    rewrite <- insert_union_singleton_l.
    rewrite lookup_insert_ne by done. rewrite lookup_singleton_eq.
    by rewrite (findOne_id_None_unused _ _ Hf).
Qed.

End ModerationFacts.

(** C1, as the code has it: for an approve request ([PUT
    /testimonialapprove]) by an admin, the 404 branch is taken exactly when
    the [id] names a stored testimonial that already has [approved: true]
    (the update then neither modifies nor upserts); for an [id] that
    matches nothing, or a testimonial not yet approved, it is never
    taken. *)
Theorem approve_404_iff_already_approved
    (fresh : string) (body : document) (s : db) :
  is_admin (Mongo.findOne (Mongo.FEq "email" (body !! "user_email"))
              (usersCollection s)) = true →
  status (fst (put_testimonialapprove fresh body s)) = 404 ↔
  ∃ oid d,
    ObjectId_new fresh (body !! "id") = Some oid ∧
    Mongo.findOne (Mongo.FEq "_id" (Some oid)) (testimonialCollection s)
      = Some d ∧
    d !! "approved" = Some (VBool true).
Proof.
  intros Hadmin. unfold put_testimonialapprove. run_handler.
  rewrite Hadmin.
  destruct (ObjectId_new fresh (body !! "id")) as [oid|] eqn:Hid.
  2:{ simpl. split; [done | by intros (? & ? & ? & _)]. }
  destruct (ObjectId_new_oid _ _ _ Hid) as [h ->].
  rewrite updateOne_approve.
  destruct (Mongo.findOne _ (testimonialCollection s)) as [d|] eqn:Hf.
  - case_bool_decide as Ha; simpl.
    + split; [eauto 6 | done].
    + split; [done |]. intros (oid & d' & Ho & Hd' & Hd). by simplify_eq.
  - simpl. split; [done |]. intros (oid & d' & Ho & Hd' & _). by simplify_eq.
Qed.

Lemma approve_404_iff_already_approved_witness :
  is_admin (Mongo.findOne
              (Mongo.FEq "email" (Sample.unknown_id !! "user_email"))
              (usersCollection Sample.store)) = true
  ∧ status (fst (put_testimonialapprove Sample.generated Sample.unknown_id
                   Sample.store)) ≠ 404.
Proof.
  split; [vm_compute; reflexivity |].
  intros H404.
  apply (approve_404_iff_already_approved Sample.generated Sample.unknown_id
           Sample.store) in H404 as (oid & d & Ho & Hd & _);
    [| vm_compute; reflexivity].
  vm_compute in Ho. injection Ho as <-. vm_compute in Hd. discriminate Hd.
Defined.

(** C1 as stated fails: an admin who approves the testimonial that is
    approved already is answered 404. *)
Lemma approve_again_is_404 :
  is_admin (Mongo.findOne
              (Mongo.FEq "email" (Sample.approve_again !! "user_email"))
              (usersCollection Sample.store)) = true
  ∧ put_testimonialapprove Sample.generated Sample.approve_again Sample.store
    = (mkResponse 404 (JError "Testimonial not found."), Sample.store).
Proof. split; vm_compute; reflexivity. Qed.

(** C2, as the code has it: for an approve request by an admin whose [id]
    the [ObjectId] constructor accepts and which matches no document of
    the testimonial collection, the document [{_id, approved: true}] is
    inserted (upsert), the status is 200 and the body is the full
    testimonial list, the new document included. *)
Theorem approve_unknown_id_upserts
    (fresh : string) (body : document) (s : db) (oid : value) :
  is_admin (Mongo.findOne (Mongo.FEq "email" (body !! "user_email"))
              (usersCollection s)) = true →
  ObjectId_new fresh (body !! "id") = Some oid →
  Mongo.findOne (Mongo.FEq "_id" (Some oid)) (testimonialCollection s)
    = None →
  let testimonials :=
    testimonialCollection s ++ [ {[ "approved" := VBool true; "_id" := oid ]} ]
  in
  put_testimonialapprove fresh body s
  = (mkResponse 200 (JDocuments testimonials),
     mkDb (usersCollection s) testimonials (proposalsCollection s)).
Proof.
  intros Hadmin Hid Hnone. unfold put_testimonialapprove. run_handler.
  rewrite Hadmin, Hid.
  destruct (ObjectId_new_oid _ _ _ Hid) as [h ->].
  rewrite updateOne_approve, Hnone. simpl. by rewrite find_FAll.
Qed.

Lemma approve_unknown_id_upserts_witness :
  ObjectId_new Sample.generated (Sample.unknown_id !! "id")
    = Some (VOid "65f2000000000000000000ff")
  ∧ put_testimonialapprove Sample.generated Sample.unknown_id Sample.store
    = (mkResponse 200
         (JDocuments
            [Sample.pending; Sample.approved;
             {[ "approved" := VBool true;
                "_id" := VOid "65f2000000000000000000ff" ]}]),
       mkDb (usersCollection Sample.store)
         [Sample.pending; Sample.approved;
          {[ "approved" := VBool true;
             "_id" := VOid "65f2000000000000000000ff" ]}]
         []).
Proof.
  split; [vm_compute; reflexivity |].
  apply (approve_unknown_id_upserts Sample.generated Sample.unknown_id
           Sample.store (VOid "65f2000000000000000000ff"));
    vm_compute; reflexivity.
Defined.

(** C2 as stated fails: an [id] that is not an [ObjectId] matches no
    document either, yet the request of an admin is answered 500 and no
    document is inserted. *)
Lemma approve_malformed_id_is_500 :
  is_admin (Mongo.findOne
              (Mongo.FEq "email" (Sample.malformed_id !! "user_email"))
              (usersCollection Sample.store)) = true
  ∧ Mongo.find (Mongo.FEq "_id" (Sample.malformed_id !! "id"))
      (testimonialCollection Sample.store) = []
  ∧ put_testimonialapprove Sample.generated Sample.malformed_id Sample.store
    = (internal_server_error, Sample.store).
Proof. repeat split; vm_compute; reflexivity. Qed.

(** C7, as the code has it: for a delete request ([DELETE
    /testimonialapprove]) by an admin whose [id] the [ObjectId] constructor
    accepts and which matches no document, the status is 404 and the
    database, the testimonial collection with it, is exactly as before. *)
Theorem delete_unknown_id_is_404
    (fresh : string) (body : document) (s : db) (oid : value) :
  is_admin (Mongo.findOne (Mongo.FEq "email" (body !! "user_email"))
              (usersCollection s)) = true →
  ObjectId_new fresh (body !! "id") = Some oid →
  Mongo.findOne (Mongo.FEq "_id" (Some oid)) (testimonialCollection s)
    = None →
  delete_testimonialapprove fresh body s
  = (mkResponse 404 (JError "Testimonial not found."), s).
Proof.
  intros Hadmin Hid Hnone. unfold delete_testimonialapprove. run_handler.
  rewrite Hadmin, Hid. unfold Mongo.deleteOne. rewrite Hnone. simpl.
  by rewrite db_eta.
Qed.

Lemma delete_unknown_id_is_404_witness :
  ObjectId_new Sample.generated (Sample.unknown_id !! "id")
    = Some (VOid "65f2000000000000000000ff")
  ∧ delete_testimonialapprove Sample.generated Sample.unknown_id Sample.store
    = (mkResponse 404 (JError "Testimonial not found."), Sample.store).
Proof.
  split; [vm_compute; reflexivity |].
  apply (delete_unknown_id_is_404 Sample.generated Sample.unknown_id
           Sample.store (VOid "65f2000000000000000000ff"));
    vm_compute; reflexivity.
Defined.

(** C7 as stated fails: for an [id] that is not an [ObjectId], which
    matches no document either, the delete request of an admin is answered
    500, not 404 (the collection is unchanged all the same). *)
Lemma delete_malformed_id_is_500 :
  is_admin (Mongo.findOne
              (Mongo.FEq "email" (Sample.malformed_id !! "user_email"))
              (usersCollection Sample.store)) = true
  ∧ Mongo.find (Mongo.FEq "_id" (Sample.malformed_id !! "id"))
      (testimonialCollection Sample.store) = []
  ∧ delete_testimonialapprove Sample.generated Sample.malformed_id
      Sample.store
    = (internal_server_error, Sample.store).
Proof. repeat split; vm_compute; reflexivity. Qed.

(** ** Profile update *)

(** C3, as the code has it: for an update-profile request ([POST
    /users/:email]) whose body has none of [displayName], [phoneNumber],
    [country], sent for an email that has a user document, the database is
    left unchanged and the answer is 200 ["No changes made to the user"]. *)
Theorem updateProfile_empty_body_is_noop
    (fresh email : string) (body : document) (s : db) (u : document) :
  body !! "displayName" = None →
  body !! "phoneNumber" = None →
  body !! "country" = None →
  Mongo.findOne (Mongo.FEq "email" (Some (VStr email))) (usersCollection s)
    = Some u →
  post_users_email fresh email body s
  = (mkResponse 200 (JMessage "No changes made to the user"), s).
Proof.
  intros Hd Hp Hc Hu. unfold post_users_email.
  rewrite Hd, Hp, Hc. unfold set_if_truthy. run_handler.
  unfold Mongo.updateOne. rewrite Hu, lookup_empty.
  rewrite set_first_empty, apply_set_empty.
  rewrite bool_decide_eq_true_2 by done. simpl. by rewrite db_eta.
Qed.

Lemma updateProfile_empty_body_is_noop_witness :
  Mongo.findOne (Mongo.FEq "email" (Some (VStr Sample.client_email)))
    (usersCollection Sample.store) = Some Sample.client
  ∧ post_users_email Sample.generated Sample.client_email ∅ Sample.store
    = (mkResponse 200 (JMessage "No changes made to the user"), Sample.store).
Proof.
  split; [vm_compute; reflexivity |].
  apply (updateProfile_empty_body_is_noop _ _ _ _ Sample.client);
    vm_compute; reflexivity.
Defined.

(** C3 as stated fails for an email without a user document: the upsert
    then inserts a document holding the email alone, and the answer is
    ["User updated successfully"]. *)
Lemma updateProfile_empty_body_unknown_email_upserts :
  Mongo.findOne (Mongo.FEq "email" (Some (VStr Sample.newcomer_email)))
    (usersCollection Sample.store) = None
  ∧ post_users_email Sample.generated Sample.newcomer_email ∅ Sample.store
    = (mkResponse 200 (JMessage "User updated successfully"),
       mkDb [Sample.root; Sample.client; Sample.guest;
             {[ "_id" := VOid Sample.generated;
                "email" := VStr Sample.newcomer_email ]}]
         (testimonialCollection Sample.store) []).
Proof. split; vm_compute; reflexivity. Qed.

(** ** Upsert and the admin flag *)

Section UpsertFacts.

Import Mongo.

(** What [PUT /users] does with a valid user document. *)
Lemma put_users_valid fresh (u : document) email (s : db) :
  valid_user u email →
  let f := FEq "email" (Some (VStr email)) in
  put_users fresh u s
  = match findOne f (usersCollection s) with
    | Some d =>
        (mkResponse 200
           (JUpdateResult
              (mkUpdateResult 1
                 (if bool_decide (apply_set u d = d) then 0 else 1) 0 None)),
         mkDb (set_first f u (usersCollection s))
           (testimonialCollection s) (proposalsCollection s))
    | None =>
        (mkResponse 200
           (JUpdateResult (mkUpdateResult 0 0 1 (Some (VOid fresh)))),
         mkDb (usersCollection s ++ [<["_id" := VOid fresh]> u])
           (testimonialCollection s) (proposalsCollection s))
    end.
Proof.
  intros [He Hid] f. unfold put_users. rewrite He. run_handler.
  unfold updateOne. fold f.
  destruct (findOne f (usersCollection s)) as [d|].
  - by rewrite Hid.
  - cbn [filter_seed f]. unfold apply_set.
    rewrite (union_singleton_r u "email" _ _ He). by rewrite Hid.
Qed.

(** The admin flag read from a collection whose first match for [email]
    is known. *)
Lemma get_users_email_found email (s : db) (d : document) :
  findOne (FEq "email" (Some (VStr email))) (usersCollection s) = Some d →
  get_users_email email s
  = (mkResponse 200
       (JAdmin (bool_decide (d !! "role" = Some (VStr "admin")))), s).
Proof. intros Hd. unfold get_users_email. run_handler. by rewrite Hd. Qed.

End UpsertFacts.

(** C4, as the code has it: for every valid user document [u], [PUT
    /users] with [u] followed by [GET /users/:email] with [u]'s email
    yields [{admin: b}] where [b] tells whether the role on record after
    the upsert is ["admin"]: the role [u] carries if it carries one,
    otherwise the role of the document the email matched before ([$set]
    leaves it untouched), and none when the upsert created the document. *)
Theorem upsert_then_getAdminFlag
    (fresh email : string) (u : document) (s : db) :
  valid_user u email →
  unique_email email (usersCollection s) →
  let previous :=
    Mongo.findOne (Mongo.FEq "email" (Some (VStr email))) (usersCollection s)
  in
  let b := bool_decide (role_after_upsert u previous = Some (VStr "admin")) in
  status (fst (put_users fresh u s)) = 200
  ∧ get_users_email email (snd (put_users fresh u s))
    = (mkResponse 200 (JAdmin b), snd (put_users fresh u s)).
Proof.
  intros Hvalid _ previous b. subst b previous.
  rewrite (put_users_valid fresh u email s Hvalid).
  destruct Hvalid as [He Hid].
  destruct (Mongo.findOne _ (usersCollection s)) as [d|] eqn:Hf;
    (split; [done |]); cbn [snd].
  - assert ((u ∪ d) !! "email" = Some (VStr email)) as Hemail
      by by apply lookup_union_Some_l.
    rewrite (get_users_email_found email _ (Mongo.apply_set u d)).
    2:{ cbn [usersCollection]. apply findOne_set_first; [done |].
        rewrite matches_FEq_str. by apply bool_decide_eq_true_2. }
    do 3 f_equal. apply bool_decide_ext.
    unfold role_after_upsert, Mongo.apply_set. cbn [mbind option_bind].
    destruct (u !! "role") as [r|] eqn:Hr.
    + by rewrite (lookup_union_Some_l _ _ _ _ Hr).
    + by rewrite (lookup_union_r _ _ _ Hr).
  - rewrite (get_users_email_found email _ (<["_id" := VOid fresh]> u)).
    2:{ cbn [usersCollection]. apply findOne_app_None; [done |].
        rewrite matches_FEq_str. apply bool_decide_eq_true_2.
        by rewrite lookup_insert_ne. }
    do 3 f_equal. apply bool_decide_ext.
    unfold role_after_upsert. cbn [mbind option_bind].
    rewrite lookup_insert_ne by done.
    by destruct (u !! "role").
Qed.

Lemma upsert_then_getAdminFlag_witness :
  valid_user Sample.self_made_admin Sample.newcomer_email
  ∧ unique_email Sample.newcomer_email (usersCollection Sample.store)
  ∧ get_users_email Sample.newcomer_email
      (snd (put_users Sample.generated Sample.self_made_admin Sample.store))
    = (mkResponse 200 (JAdmin true),
       snd (put_users Sample.generated Sample.self_made_admin Sample.store)).
Proof.
  assert (valid_user Sample.self_made_admin Sample.newcomer_email) as Hvalid
    by (split; vm_compute; reflexivity).
  assert (unique_email Sample.newcomer_email (usersCollection Sample.store))
    as Hunique by (vm_compute; lia).
  split; [exact Hvalid | split; [exact Hunique |]].
  exact (proj2 (upsert_then_getAdminFlag Sample.generated
                  Sample.newcomer_email Sample.self_made_admin Sample.store
                  Hvalid Hunique)).
Defined.

(** C4 as stated fails: the root user, an admin on record, is upserted
    with a valid document that carries no role; the flag read afterwards
    is [true] although the document's role is not ["admin"]. *)
Lemma upsert_without_role_keeps_admin :
  valid_user Sample.root_again Sample.root_email
  ∧ unique_email Sample.root_email (usersCollection Sample.store)
  ∧ bool_decide (Sample.root_again !! "role" = Some (VStr "admin")) = false
  ∧ get_users_email Sample.root_email
      (snd (put_users Sample.generated Sample.root_again Sample.store))
    = (mkResponse 200 (JAdmin true),
       snd (put_users Sample.generated Sample.root_again Sample.store)).
Proof.
  split; [split; vm_compute; reflexivity |].
  split; [vm_compute; lia |].
  split; vm_compute; reflexivity.
Qed.

(** ** Self-service admin *)

(** C9: nothing restricts who sets [role]: [POST /users] with
    [{email, role: "admin"}] is answered 200 whatever the users collection
    holds, the document is stored as sent (the driver adds the [_id]), and,
    no earlier document having that email, [GET /users/:email] then returns
    [{admin: true}]. *)
Theorem self_registered_admin (fresh email : string) (s : db) :
  Mongo.findOne (Mongo.FEq "email" (Some (VStr email))) (usersCollection s)
    = None →
  let user : document := {[ "email" := VStr email; "role" := VStr "admin" ]} in
  let s' :=
    mkDb (usersCollection s ++ [<["_id" := VOid fresh]> user])
      (testimonialCollection s) (proposalsCollection s)
  in
  post_users fresh user s
  = (mkResponse 200
       (JInsertResult (Mongo.mkInsertOneResult (VOid fresh))), s')
  ∧ get_users_email email s' = (mkResponse 200 (JAdmin true), s').
Proof.
  intros Hnone user s'. split.
  - unfold post_users. run_handler. unfold Mongo.insertOne.
    assert (user !! "_id" = None) as ->; [| done].
    unfold user. rewrite lookup_insert_ne by done.
    by rewrite lookup_singleton_ne.
  - rewrite (get_users_email_found email s' (<["_id" := VOid fresh]> user)).
    + rewrite bool_decide_eq_true_2; [done |].
      unfold user. rewrite !lookup_insert_ne by done.
      apply lookup_singleton_eq.
    + apply findOne_app_None; [done |].
      rewrite matches_FEq_str. apply bool_decide_eq_true_2.
      unfold user. rewrite lookup_insert_ne by done.
      apply lookup_insert_eq.
Qed.

Lemma self_registered_admin_witness :
  Mongo.findOne (Mongo.FEq "email" (Some (VStr Sample.newcomer_email)))
    (usersCollection Sample.store) = None
  ∧ status (fst (post_users Sample.generated Sample.self_made_admin
                   Sample.store)) = 200
  ∧ fst (get_users_email Sample.newcomer_email
           (snd (post_users Sample.generated Sample.self_made_admin
                   Sample.store)))
    = mkResponse 200 (JAdmin true).
Proof.
  assert (Mongo.findOne
            (Mongo.FEq "email" (Some (VStr Sample.newcomer_email)))
            (usersCollection Sample.store) = None) as Hnone
    by (vm_compute; reflexivity).
  split; [exact Hnone |].
  destruct (self_registered_admin Sample.generated Sample.newcomer_email
              Sample.store Hnone) as [Hpost Hget].
  unfold Sample.self_made_admin. rewrite Hpost. cbn [fst snd status].
  split; [reflexivity | by rewrite Hget].
Defined.

(** * Further properties of the handlers *)

(** ** More on the driver operations *)

Section MoreDriverFacts.

Import Mongo.

Implicit Types (f : filter) (c : list document) (d u : document).

(** Where [findOne] finds its document: nothing before it matches, and the
    two writing operations act on that document alone. *)
Lemma findOne_split f c d :
  findOne f c = Some d →
  ∃ before after,
    c = before ++ d :: after
    ∧ Forall (fun x => matches f x = false) before
    ∧ matches f d = true
    ∧ (∀ u, set_first f u c = before ++ apply_set u d :: after)
    ∧ remove_first f c = before ++ after.
Proof.
  unfold findOne. induction c as [|x c IH]; simpl; [done |].
  destruct (matches f x) eqn:Hm.
  - intros [= ->]. exists [], c. simpl. by rewrite Hm.
  - intros Hf. destruct (IH Hf) as (l1 & l2 & -> & Hl1 & Hd & Hset & Hrem).
    exists (x :: l1), l2. simpl. rewrite Hrem.
    split_and!;
      [done | by constructor | done | intros u; by rewrite Hset | done].
Qed.


(** An [_id] that is not in use is not found. *)
Lemma findOne_id_unused h c :
  id_in_use (VOid h) c = false → findOne (FEq "_id" (Some (VOid h))) c = None.
Proof.
  unfold findOne, id_in_use.
  induction c as [|x c IH]; cbn [List.find existsb]; [done |].
  rewrite matches_FEq_oid. by destruct (bool_decide _).
Qed.

(** [findOne] over a collection that grew at its end. *)
Lemma findOne_app f c c' :
  findOne f (c ++ c') =
  match findOne f c with Some d => Some d | None => findOne f c' end.
Proof.
  unfold findOne. induction c as [|x c IH]; simpl; [done |].
  by destruct (matches f x).
Qed.


(** A [$set] that changes nothing in the matched document changes nothing
    in the collection, and conversely. *)
Lemma set_first_id f u c d :
  findOne f c = Some d → (set_first f u c = c ↔ apply_set u d = d).
Proof.
  intros (l1 & l2 & Hc & _ & _ & Hset & _)%findOne_split.
  rewrite Hset, Hc. split.
  - intros H%app_inv_head. by injection H.
  - by intros ->.
Qed.

Lemma id_in_use_false v c : id_in_use v c = false ↔ Some v ∉ ids c.
Proof.
  unfold id_in_use, ids. induction c as [|x c IH]; simpl.
  - split; [intros _; apply not_elem_of_nil | done].
  - rewrite not_elem_of_cons, orb_false_iff, IH, bool_decide_eq_false.
    split; intros [Hx Hc]; (split; [congruence | done]).
Qed.

(** A [$set] that leaves the [_id] of the matched document alone leaves
    the [_id]s of the collection as they are. *)
Lemma ids_set_first f u c d :
  findOne f c = Some d →
  apply_set u d !! "_id" = d !! "_id" →
  ids (set_first f u c) = ids c.
Proof.
  intros (l1 & l2 & Hc & _ & _ & Hset & _)%findOne_split Hid.
  rewrite Hset, Hc. unfold ids. rewrite !fmap_app. simpl. by rewrite Hid.
Qed.

Lemma ids_unique_remove_first f c :
  ids_unique c → ids_unique (remove_first f c).
Proof.
  unfold ids_unique, ids. induction c as [|x c IH]; simpl; [done |].
  intros [Hx Hc]%list.NoDup_cons. destruct (matches f x); [done |].
  simpl. apply list.NoDup_cons. split; [| by apply IH].
  intros Hin. apply Hx. clear -Hin.
  induction c as [|y c IH]; simpl in *; [done |].
  destruct (matches f y); [by right |].
  simpl in Hin. apply elem_of_cons in Hin as [-> | Hin]; [by left |].
  right. by apply IH.
Qed.

Lemma ids_unique_snoc c d :
  ids_unique c → d !! "_id" ∉ ids c → ids_unique (c ++ [d]).
Proof.
  unfold ids_unique, ids. intros Hc Hd. rewrite fmap_app. simpl.
  apply list.NoDup_app. repeat split; [done | | apply list.NoDup_singleton].
  intros x Hx ->%list_elem_of_singleton. done.
Qed.

(** Every result of [updateOne] keeps the [_id]s apart. *)
Lemma updateOne_ids_unique fresh f u c r c' :
  updateOne fresh f u c = Some (r, c') →
  id_in_use (VOid fresh) c = false →
  ids_unique c → ids_unique c'.
Proof.
  unfold updateOne. intros Hupd Hfresh Hc.
  destruct (findOne f c) as [d|] eqn:Hf.
  - assert (∀ r0, Some (r0, set_first f u c) = Some (r, c') →
              apply_set u d !! "_id" = d !! "_id" → ids_unique c') as Hdone.
    { intros r0 [= _ <-] Hid. unfold ids_unique.
      by rewrite (ids_set_first _ _ _ _ Hf Hid). }
    unfold apply_set in *.
    destruct (u !! "_id") as [v|] eqn:Hu.
    + case_bool_decide as Hd; [| done].
      apply (Hdone _ Hupd). rewrite Hd. by apply lookup_union_Some_l.
    + apply (Hdone _ Hupd). by apply lookup_union_r.
  - destruct (apply_set u (filter_seed f) !! "_id") as [v|] eqn:Hs.
    + destruct (id_in_use v c) eqn:Hv; [done |].
      injection Hupd as _ <-. apply ids_unique_snoc; [done |].
      rewrite Hs. by apply id_in_use_false.
    + injection Hupd as _ <-. apply ids_unique_snoc; [done |].
      rewrite lookup_insert_eq. by apply id_in_use_false.
Qed.

Lemma insertOne_ids_unique fresh d c r c' :
  insertOne fresh d c = Some (r, c') →
  id_in_use (VOid fresh) c = false →
  ids_unique c → ids_unique c'.
Proof.
  unfold insertOne. intros Hins Hfresh Hc.
  destruct (d !! "_id") as [v|] eqn:Hd.
  - destruct (id_in_use v c) eqn:Hv; [done |].
    injection Hins as _ <-. apply ids_unique_snoc; [done |].
    rewrite Hd. by apply id_in_use_false.
  - injection Hins as _ <-. apply ids_unique_snoc; [done |].
    rewrite lookup_insert_eq. by apply id_in_use_false.
Qed.


End MoreDriverFacts.

Lemma set_if_truthy_lookup k v (m : document) j :
  set_if_truthy k v m !! j =
  if bool_decide (j = k) && js_truthy v then v else m !! j.
Proof.
  unfold set_if_truthy. destruct v as [x|]; [| by rewrite andb_false_r].
  destruct (js_truthy (Some x)); [| by rewrite andb_false_r].
  rewrite andb_true_r. case_bool_decide as Hj.
  - subst j. apply lookup_insert_eq.
  - by apply lookup_insert_ne.
Qed.

(** The update document of [POST /users/:email], field by field: a profile
    field is there exactly when the body's value is truthy, nothing else
    is. *)
Lemma profile_fields_lookup (body : document) (k : string) :
  profile_fields body !! k =
  if profile_field k && js_truthy (body !! k) then body !! k else None.
Proof.
  unfold profile_fields, profile_field.
  rewrite !set_if_truthy_lookup, lookup_empty.
  repeat case_bool_decide; subst; simplify_eq; simpl;
    by repeat match goal with
         | |- context [js_truthy ?v] => destruct (js_truthy v)
         end.
Qed.

(** ** What the handlers do, case by case *)

Section HandlerRuns.

Import Mongo.

(** [POST /users/:email] never throws: its update document carries no
    [_id]. *)
Lemma post_users_email_run fresh email (body : document) (s : db) :
  let f := FEq "email" (Some (VStr email)) in
  let fields := profile_fields body in
  post_users_email fresh email body s =
  match findOne f (usersCollection s) with
  | Some d =>
      (mkResponse 200
         (JMessage (if bool_decide (apply_set fields d = d)
                    then "No changes made to the user"
                    else "User updated successfully")),
       mkDb (set_first f fields (usersCollection s))
         (testimonialCollection s) (proposalsCollection s))
  | None =>
      (mkResponse 200 (JMessage "User updated successfully"),
       mkDb (usersCollection s
             ++ [<["_id" := VOid fresh]> (<["email" := VStr email]> fields)])
         (testimonialCollection s) (proposalsCollection s))
  end.
Proof.
  intros f fields. unfold post_users_email. fold (profile_fields body).
  fold fields f. run_handler. unfold updateOne.
  assert (fields !! "_id" = None) as Hid
    by (unfold fields; by rewrite profile_fields_lookup).
  assert (fields !! "email" = None) as Hemail
    by (unfold fields; by rewrite profile_fields_lookup).
  destruct (findOne f (usersCollection s)) as [d|].
  - rewrite Hid. by case_bool_decide.
  - cbn [filter_seed f]. unfold apply_set.
    rewrite <- (insert_union_singleton_r fields "email" _ Hemail).
    rewrite lookup_insert_ne by done. by rewrite Hid.
Qed.

(** [PUT /testimonialapprove] for an admin and an id the constructor
    accepts. *)
Lemma put_testimonialapprove_run fresh (body : document) (s : db) h :
  is_admin (findOne (FEq "email" (body !! "user_email")) (usersCollection s))
    = true →
  ObjectId_new fresh (body !! "id") = Some (VOid h) →
  let f := FEq "_id" (Some (VOid h)) in
  put_testimonialapprove fresh body s =
  match findOne f (testimonialCollection s) with
  | Some d =>
      let c := set_first f {[ "approved" := VBool true ]}
                 (testimonialCollection s) in
      let s' := mkDb (usersCollection s) c (proposalsCollection s) in
      if bool_decide (d !! "approved" = Some (VBool true))
      then (mkResponse 404 (JError "Testimonial not found."), s')
      else (mkResponse 200 (JDocuments c), s')
  | None =>
      let c := testimonialCollection s
               ++ [ {[ "approved" := VBool true; "_id" := VOid h ]} ] in
      (mkResponse 200 (JDocuments c),
       mkDb (usersCollection s) c (proposalsCollection s))
  end.
Proof.
  intros Hadmin Hid f. unfold put_testimonialapprove. run_handler.
  rewrite Hadmin, Hid, updateOne_approve. fold f.
  destruct (findOne f (testimonialCollection s)) as [d|].
  - case_bool_decide; simpl; [done | by rewrite find_FAll].
  - simpl. by rewrite find_FAll.
Qed.

(** [DELETE /testimonialapprove] for an admin and an id the constructor
    accepts. *)
Lemma delete_testimonialapprove_run fresh (body : document) (s : db) h :
  is_admin (findOne (FEq "email" (body !! "user_email")) (usersCollection s))
    = true →
  ObjectId_new fresh (body !! "id") = Some (VOid h) →
  let f := FEq "_id" (Some (VOid h)) in
  delete_testimonialapprove fresh body s =
  match findOne f (testimonialCollection s) with
  | Some d =>
      let c := remove_first f (testimonialCollection s) in
      (mkResponse 200 (JDocuments c),
       mkDb (usersCollection s) c (proposalsCollection s))
  | None => (mkResponse 404 (JError "Testimonial not found."), s)
  end.
Proof.
  intros Hadmin Hid f. unfold delete_testimonialapprove. run_handler.
  rewrite Hadmin, Hid. unfold deleteOne. fold f.
  destruct (findOne f (testimonialCollection s)) as [d|]; simpl.
  - by rewrite find_FAll.
  - by rewrite db_eta.
Qed.

End HandlerRuns.

(** ** Failures and frames *)



(** The collections a request leaves alone. *)
Lemma handle_frame (fresh : string) (r : request) (s : db) :
  let s' := snd (handle fresh r s) in
  (written r ≠ Some Users → usersCollection s' = usersCollection s)
  ∧ (written r ≠ Some Testimonials →
     testimonialCollection s' = testimonialCollection s)
  ∧ proposalsCollection s' = proposalsCollection s.
Proof.
  destruct r as [b|b|e|e|e b|e|b|b|b|e|q]; cbn [handle written].
  - unfold post_users. run_handler.
    destruct (Mongo.insertOne fresh b (usersCollection s)) as [[??]|];
      simpl; done.
  - unfold put_users. run_handler.
    destruct (Mongo.updateOne fresh _ b (usersCollection s)) as [[??]|];
      simpl; done.
  - unfold get_users_email. run_handler. done.
  - unfold get_users_phone_email. run_handler.
    destruct (Mongo.findOne _ (usersCollection s)) as [u|]; [| done].
    by destruct (js_truthy (u !! "phoneNumber")).
  - rewrite post_users_email_run.
    by destruct (Mongo.findOne _ (usersCollection s)).
  - unfold get_testimonialapprove_email. run_handler.
    by destruct (is_admin _).
  - unfold put_testimonialapprove. run_handler.
    destruct (is_admin _); [| done].
    destruct (ObjectId_new fresh (b !! "id")) as [oid|]; [| done].
    destruct (Mongo.updateOne fresh _ _ (testimonialCollection s))
      as [[res ?]|]; simpl; [| done].
    by destruct (_ || _).
  - unfold delete_testimonialapprove. run_handler.
    destruct (is_admin _); [| done].
    destruct (ObjectId_new fresh (b !! "id")) as [oid|]; [| done].
    destruct (Mongo.deleteOne _ (testimonialCollection s)) as [res ?].
    simpl. by destruct (_ =? _)%nat.
  - unfold post_testimonial. run_handler.
    destruct (Mongo.insertOne fresh b (testimonialCollection s)) as [[??]|];
      simpl; done.
  - unfold get_makeproposal_email. run_handler. done.
  - unfold get_makeproposal. run_handler. by destruct (is_admin _).
Qed.

(** A handler writes to one collection at most, the one of its route: the
    requests on users leave the testimonials alone and the other way
    round, the [GET] requests change nothing, and none of these handlers
    writes to the proposals. *)
Theorem handlers_write_their_own_collection
    (fresh : string) (r : request) (s : db) :
  let s' := snd (handle fresh r s) in
  (written r ≠ Some Users → usersCollection s' = usersCollection s)
  ∧ (written r ≠ Some Testimonials →
     testimonialCollection s' = testimonialCollection s)
  ∧ proposalsCollection s' = proposalsCollection s.
Proof. apply handle_frame. Qed.

Lemma handlers_write_their_own_collection_witness :
  usersCollection
    (snd (handle Sample.generated
            (DELETE_testimonialapprove
               (Sample.moderation (VStr "65f2000000000000000000a1")
                  Sample.root_email))
            Sample.store))
  = usersCollection Sample.store
  ∧ testimonialCollection
      (snd (handle Sample.generated (PUT_users Sample.self_made_admin)
              Sample.store))
    = testimonialCollection Sample.store.
Proof.
  split.
  - apply (proj1 (handlers_write_their_own_collection Sample.generated
                    (DELETE_testimonialapprove _) Sample.store)).
    vm_compute. discriminate.
  - apply (proj1 (proj2 (handlers_write_their_own_collection
                           Sample.generated (PUT_users _) Sample.store))).
    vm_compute. discriminate.
Defined.

(** ** Moderation: approving, deleting, listing *)

(** Approving a stored testimonial that is not approved yet marks that
    document where it stands: the answer is 200 with the full list, in
    which the first testimonial with that [_id] has gained [approved: true]
    and kept its other fields; every other testimonial is as before. *)
Theorem approve_stored_marks_in_place
    (fresh : string) (body : document) (s : db) (oid : value)
    (d : document) :
  is_admin (Mongo.findOne (Mongo.FEq "email" (body !! "user_email"))
              (usersCollection s)) = true →
  ObjectId_new fresh (body !! "id") = Some oid →
  Mongo.findOne (Mongo.FEq "_id" (Some oid)) (testimonialCollection s)
    = Some d →
  d !! "approved" ≠ Some (VBool true) →
  ∃ before after,
    testimonialCollection s = before ++ d :: after
    ∧ Forall (fun x => x !! "_id" ≠ Some oid) before
    ∧ put_testimonialapprove fresh body s
      = (mkResponse 200
           (JDocuments (before ++ <["approved" := VBool true]> d :: after)),
         mkDb (usersCollection s)
           (before ++ <["approved" := VBool true]> d :: after)
           (proposalsCollection s)).
Proof.
  intros Hadmin Hid Hd Hpending.
  destruct (ObjectId_new_oid _ _ _ Hid) as [h ->].
  rewrite (put_testimonialapprove_run _ _ _ _ Hadmin Hid), Hd. cbv zeta.
  rewrite bool_decide_eq_false_2 by done.
  destruct (findOne_split _ _ _ Hd) as (l1 & l2 & Hc & Hl1 & _ & Hset & _).
  exists l1, l2. split_and!; [done | |].
  - revert Hl1. apply List.Forall_impl. intros x Hx.
    rewrite matches_FEq_oid in Hx. by apply bool_decide_eq_false in Hx.
  - rewrite Hset. unfold Mongo.apply_set.
    by rewrite <- insert_union_singleton_l.
Qed.

Lemma approve_stored_marks_in_place_witness :
  put_testimonialapprove Sample.generated
    (Sample.moderation (VStr "65f2000000000000000000a1") Sample.root_email)
    Sample.store
  = (mkResponse 200
       (JDocuments
          [<["approved" := VBool true]> Sample.pending; Sample.approved]),
     mkDb (usersCollection Sample.store)
       [<["approved" := VBool true]> Sample.pending; Sample.approved] []).
Proof.
  destruct (approve_stored_marks_in_place Sample.generated
              (Sample.moderation (VStr "65f2000000000000000000a1")
                 Sample.root_email)
              Sample.store (VOid "65f2000000000000000000a1") Sample.pending)
    as (before & after & Hc & Hbefore & Hrun);
    [vm_compute; reflexivity .. | vm_compute; discriminate |].
  unfold Sample.store in Hc. cbn [testimonialCollection] in Hc.
  destruct before as [|x before]; cbn [app] in Hc.
  - assert (after = [Sample.approved]) as -> by congruence. exact Hrun.
  - exfalso. assert (x = Sample.pending) as -> by congruence.
    apply (List.Forall_inv Hbefore). vm_compute. reflexivity.
Defined.



(** Deleting a stored testimonial removes the first document with that
    [_id] and nothing else: the answer is 200 with the remaining list, in
    the stored order. *)
Theorem delete_stored_removes_it
    (fresh : string) (body : document) (s : db) (oid : value)
    (d : document) :
  is_admin (Mongo.findOne (Mongo.FEq "email" (body !! "user_email"))
              (usersCollection s)) = true →
  ObjectId_new fresh (body !! "id") = Some oid →
  Mongo.findOne (Mongo.FEq "_id" (Some oid)) (testimonialCollection s)
    = Some d →
  ∃ before after,
    testimonialCollection s = before ++ d :: after
    ∧ Forall (fun x => x !! "_id" ≠ Some oid) before
    ∧ delete_testimonialapprove fresh body s
      = (mkResponse 200 (JDocuments (before ++ after)),
         mkDb (usersCollection s) (before ++ after) (proposalsCollection s)).
Proof.
  intros Hadmin Hid Hd.
  destruct (ObjectId_new_oid _ _ _ Hid) as [h ->].
  rewrite (delete_testimonialapprove_run _ _ _ _ Hadmin Hid), Hd. cbv zeta.
  destruct (findOne_split _ _ _ Hd) as (l1 & l2 & Hc & Hl1 & _ & _ & Hrem).
  exists l1, l2. split_and!; [done | | by rewrite Hrem].
  revert Hl1. apply List.Forall_impl. intros x Hx.
  rewrite matches_FEq_oid in Hx. by apply bool_decide_eq_false in Hx.
Qed.

Lemma delete_stored_removes_it_witness :
  delete_testimonialapprove Sample.generated
    (Sample.moderation (VStr "65f2000000000000000000a1") Sample.root_email)
    Sample.store
  = (mkResponse 200 (JDocuments [Sample.approved]),
     mkDb (usersCollection Sample.store) [Sample.approved] []).
Proof.
  destruct (delete_stored_removes_it Sample.generated
              (Sample.moderation (VStr "65f2000000000000000000a1")
                 Sample.root_email)
              Sample.store (VOid "65f2000000000000000000a1") Sample.pending)
    as (before & after & Hc & Hbefore & Hrun); [vm_compute; reflexivity .. |].
  unfold Sample.store in Hc. cbn [testimonialCollection] in Hc.
  destruct before as [|x before]; cbn [app] in Hc.
  - assert (after = [Sample.approved]) as -> by congruence. exact Hrun.
  - exfalso. assert (x = Sample.pending) as -> by congruence.
    apply (List.Forall_inv Hbefore). vm_compute. reflexivity.
Defined.



(** Once approved, a testimonial is off the list of pending ones: after
    an admin approves a stored testimonial that had no [approved] field,
    the list [GET /testimonialapprove/:email] returns to an admin is the
    earlier list without that testimonial, all others in place. *)
Theorem approved_leaves_pending_list
    (fresh : string) (body : document) (admin : string) (s : db)
    (oid : value) (d : document) :
  is_admin (Mongo.findOne (Mongo.FEq "email" (body !! "user_email"))
              (usersCollection s)) = true →
  is_admin (Mongo.findOne (Mongo.FEq "email" (Some (VStr admin)))
              (usersCollection s)) = true →
  ObjectId_new fresh (body !! "id") = Some oid →
  Mongo.findOne (Mongo.FEq "_id" (Some oid)) (testimonialCollection s)
    = Some d →
  d !! "approved" = None →
  ∃ before after,
    fst (get_testimonialapprove_email admin s)
      = mkResponse 200 (JDocuments (before ++ d :: after))
    ∧ fst (get_testimonialapprove_email admin
             (snd (put_testimonialapprove fresh body s)))
      = mkResponse 200 (JDocuments (before ++ after)).
Proof.
  intros Hadmin Hadmin' Hid Hd Hpending.
  destruct (ObjectId_new_oid _ _ _ Hid) as [h ->].
  rewrite (put_testimonialapprove_run _ _ _ _ Hadmin Hid), Hd. cbv zeta.
  rewrite bool_decide_eq_false_2 by (by rewrite Hpending). cbn [snd].
  destruct (findOne_split _ _ _ Hd) as (l1 & l2 & Hc & _ & _ & Hset & _).
  unfold get_testimonialapprove_email. run_handler. rewrite Hadmin'.
  cbn [fst]. rewrite Hset, Hc. unfold Mongo.find.
  exists (List.filter (Mongo.matches (Mongo.FNotExists "approved")) l1),
    (List.filter (Mongo.matches (Mongo.FNotExists "approved")) l2).
  cbn [testimonialCollection].
  rewrite !List.filter_app. cbn [List.filter Mongo.matches].
  rewrite (bool_decide_eq_true_2 _ Hpending).
  rewrite bool_decide_eq_false_2; [done |].
  unfold Mongo.apply_set. by rewrite (lookup_union_Some_l _ _ _ (VBool true)).
Qed.

Lemma approved_leaves_pending_list_witness :
  fst (get_testimonialapprove_email Sample.root_email Sample.store)
    = mkResponse 200 (JDocuments [Sample.pending])
  ∧ fst (get_testimonialapprove_email Sample.root_email
           (snd (put_testimonialapprove Sample.generated
                   (Sample.moderation (VStr "65f2000000000000000000a1")
                      Sample.root_email) Sample.store)))
    = mkResponse 200 (JDocuments []).
Proof.
  destruct (approved_leaves_pending_list Sample.generated
              (Sample.moderation (VStr "65f2000000000000000000a1")
                 Sample.root_email)
              Sample.root_email Sample.store
              (VOid "65f2000000000000000000a1") Sample.pending)
    as (before & after & Hlist & Hlist'); [vm_compute; reflexivity .. |].
  assert (fst (get_testimonialapprove_email Sample.root_email Sample.store)
          = mkResponse 200 (JDocuments [Sample.pending])) as Hnow
    by (vm_compute; reflexivity).
  split; [exact Hnow |].
  rewrite Hlist'. rewrite Hlist in Hnow.
  destruct before as [|x [|y before]]; destruct after; cbn [app] in Hnow;
    try discriminate Hnow; reflexivity.
Defined.

(** A submitted testimonial is stored as sent, so it is pending only if
    its sender left [approved] out: after [POST /testimonial] with a body
    that has no [_id], the list of pending testimonials an admin gets is
    the earlier list with the new testimonial at its end when the body has
    no [approved] field, and the earlier list otherwise. *)
Theorem submitted_testimonial_pending_iff_no_approved_field
    (fresh admin : string) (body : document) (s : db) :
  is_admin (Mongo.findOne (Mongo.FEq "email" (Some (VStr admin)))
              (usersCollection s)) = true →
  body !! "_id" = None →
  let pending := Mongo.find (Mongo.FNotExists "approved")
                   (testimonialCollection s) in
  status (fst (post_testimonial fresh body s)) = 200
  ∧ fst (get_testimonialapprove_email admin
           (snd (post_testimonial fresh body s)))
    = mkResponse 200
        (JDocuments
           (pending ++
            if bool_decide (body !! "approved" = None)
            then [<["_id" := VOid fresh]> body] else [])).
Proof.
  intros Hadmin Hid pending. subst pending.
  unfold post_testimonial. run_handler. unfold Mongo.insertOne.
  rewrite Hid. cbn [fst snd status]. split; [done |].
  unfold get_testimonialapprove_email. run_handler. rewrite Hadmin.
  cbn [fst testimonialCollection]. unfold Mongo.find.
  rewrite List.filter_app. cbn [List.filter Mongo.matches].
  rewrite lookup_insert_ne by done.
  by destruct (bool_decide (body !! "approved" = None)).
Qed.

Lemma submitted_testimonial_pending_iff_no_approved_field_witness :
  fst (get_testimonialapprove_email Sample.root_email
         (snd (post_testimonial Sample.generated
                 {[ "text" := VStr "Five stars"; "approved" := VBool false ]}
                 Sample.store)))
  = mkResponse 200 (JDocuments [Sample.pending]).
Proof.
  refine (proj2 (submitted_testimonial_pending_iff_no_approved_field
                   Sample.generated Sample.root_email
                   {[ "text" := VStr "Five stars"; "approved" := VBool false ]}
                   Sample.store _ _));
    vm_compute; reflexivity.
Defined.

(** An approve request without an [id] does not fail: the constructor
    generates an id, nothing matches it, and the upsert stores a new
    document that holds that [_id] and [approved: true] and nothing
    else. *)
Theorem approve_without_id_stores_new_document
    (fresh : string) (payload : document) (s : db) :
  is_admin (Mongo.findOne (Mongo.FEq "email" (payload !! "user_email"))
              (usersCollection s)) = true →
  payload !! "id" = None →
  Mongo.id_in_use (VOid fresh) (testimonialCollection s) = false →
  let testimonials :=
    testimonialCollection s
    ++ [ {[ "approved" := VBool true; "_id" := VOid fresh ]} ] in
  put_testimonialapprove fresh payload s
  = (mkResponse 200 (JDocuments testimonials),
     mkDb (usersCollection s) testimonials (proposalsCollection s)).
Proof.
  intros Hadmin Hid Hfresh testimonials. subst testimonials.
  rewrite (put_testimonialapprove_run fresh payload s fresh Hadmin);
    [| by rewrite Hid].
  by rewrite (findOne_id_unused _ _ Hfresh).
Qed.

Lemma approve_without_id_stores_new_document_witness :
  put_testimonialapprove Sample.generated
    {[ "user_email" := VStr Sample.root_email ]} Sample.store
  = (mkResponse 200
       (JDocuments
          [Sample.pending; Sample.approved;
           {[ "approved" := VBool true; "_id" := VOid Sample.generated ]}]),
     mkDb (usersCollection Sample.store)
       [Sample.pending; Sample.approved;
        {[ "approved" := VBool true; "_id" := VOid Sample.generated ]}]
       []).
Proof.
  apply (approve_without_id_stores_new_document Sample.generated
           {[ "user_email" := VStr Sample.root_email ]} Sample.store);
    vm_compute; reflexivity.
Defined.

(** ** Profile updates *)

Section ProfileFacts.

Import Mongo.

(** An update that writes neither [email] nor [role] changes nobody's
    admin flag. *)
Lemma is_admin_set_first f (u : document) e (c : list document) :
  u !! "email" = None → u !! "role" = None →
  is_admin (findOne (FEq "email" (Some (VStr e))) (set_first f u c))
  = is_admin (findOne (FEq "email" (Some (VStr e))) c).
Proof.
  intros Hemail Hrole. unfold findOne.
  induction c as [|x c IH]; cbn [set_first List.find]; [done |].
  destruct (matches f x); cbn [List.find].
  - rewrite !matches_FEq_str. unfold apply_set.
    rewrite (lookup_union_r _ _ _ Hemail).
    destruct (bool_decide (x !! "email" = Some (VStr e))); [| done].
    cbn [is_admin]. by rewrite (lookup_union_r _ _ _ Hrole).
  - destruct (matches _ x); [done | exact IH].
Qed.

End ProfileFacts.

(** [POST /users/:email] cannot grant or revoke admin: whatever the body
    (a [role] in it is ignored) and whoever the email, the admin flag
    [GET /users/:email] reports for every email is the same after the
    update as before. *)
Theorem updateProfile_keeps_admin_flags
    (fresh email : string) (body : document) (s : db) (e : string) :
  fst (get_users_email e (snd (post_users_email fresh email body s)))
  = fst (get_users_email e s).
Proof.
  rewrite post_users_email_run. unfold get_users_email. run_handler.
  do 2 f_equal.
  assert (profile_fields body !! "email" = None) as Hemail
    by by rewrite profile_fields_lookup.
  assert (profile_fields body !! "role" = None) as Hrole
    by by rewrite profile_fields_lookup.
  destruct (Mongo.findOne (Mongo.FEq "email" (Some (VStr email)))
              (usersCollection s)) as [d|];
    cbn [snd usersCollection].
  - by apply is_admin_set_first.
  - rewrite findOne_app.
    destruct (Mongo.findOne (Mongo.FEq "email" (Some (VStr e)))
                (usersCollection s)) as [d|]; [done |].
    unfold Mongo.findOne. cbn [List.find].
    destruct (Mongo.matches _ _); [| done].
    cbn [is_admin]. apply bool_decide_eq_false_2.
    rewrite !lookup_insert_ne by done. by rewrite Hrole.
Qed.


Section ProfileReads.

Import Mongo.

(** What [GET /users/phone/:email] answers for a user with a truthy
    phone number. *)
Lemma get_users_phone_email_found email (s : db) (u : document) p :
  findOne (FEq "email" (Some (VStr email))) (usersCollection s) = Some u →
  u !! "phoneNumber" = Some p →
  js_truthy (Some p) = true →
  get_users_phone_email email s = (mkResponse 200 (JPhoneNumber (Some p)), s).
Proof.
  intros Hu Hp Htruthy. unfold get_users_phone_email. run_handler.
  by rewrite Hu, Hp, Htruthy.
Qed.

(** The document [findOne] returns for [email] after [POST
    /users/:email]. *)
Lemma post_users_email_stored fresh email (payload : document) (s : db) :
  let f := FEq "email" (Some (VStr email)) in
  findOne f (usersCollection (snd (post_users_email fresh email payload s)))
  = Some match findOne f (usersCollection s) with
         | Some d => apply_set (profile_fields payload) d
         | None =>
             <["_id" := VOid fresh]>
               (<["email" := VStr email]> (profile_fields payload))
         end.
Proof.
  intros f. rewrite post_users_email_run. fold f.
  destruct (findOne f (usersCollection s)) as [d|] eqn:Hf;
    cbn [snd usersCollection].
  - apply findOne_set_first; [done |].
    destruct (findOne_split _ _ _ Hf) as (_ & _ & _ & _ & Hm & _).
    unfold f in *. rewrite matches_FEq_str in *.
    apply bool_decide_eq_true in Hm. apply bool_decide_eq_true_2.
    unfold apply_set. rewrite lookup_union_r; [done |].
    by rewrite profile_fields_lookup.
  - apply findOne_app_None; [done |].
    unfold f. rewrite matches_FEq_str. apply bool_decide_eq_true_2.
    rewrite lookup_insert_ne by done. apply lookup_insert_eq.
Qed.

End ProfileReads.

(** A phone number written through [POST /users/:email] is the one [GET
    /users/phone/:email] returns, whether the email had a user document or
    the update created one. *)
Theorem updateProfile_then_getPhone
    (fresh email : string) (payload : document) (s : db) (p : value) :
  payload !! "phoneNumber" = Some p →
  js_truthy (Some p) = true →
  fst (get_users_phone_email email
         (snd (post_users_email fresh email payload s)))
  = mkResponse 200 (JPhoneNumber (Some p)).
Proof.
  intros Hp Htruthy.
  assert (profile_fields payload !! "phoneNumber" = Some p) as Hfield.
  { rewrite profile_fields_lookup, Hp. cbn [profile_field].
    rewrite Htruthy. done. }
  erewrite get_users_phone_email_found;
    [done | apply post_users_email_stored | | exact Htruthy].
  destruct (Mongo.findOne _ (usersCollection s)) as [d|].
  - by apply lookup_union_Some_l.
  - by rewrite !lookup_insert_ne.
Qed.

Lemma updateProfile_then_getPhone_witness :
  fst (get_users_phone_email Sample.client_email
         (snd (post_users_email Sample.generated Sample.client_email
                 {[ "phoneNumber" := VStr "+8801812345678" ]} Sample.store)))
  = mkResponse 200 (JPhoneNumber (Some (VStr "+8801812345678"))).
Proof.
  apply updateProfile_then_getPhone; vm_compute; reflexivity.
Defined.

(** [POST /users/:email] only ever adds or overwrites: for a user on
    record, a field outside [displayName], [phoneNumber], [country], and a
    field whose submitted value is missing or falsy (the empty string, for
    one), keeps the value it had.  So no request to this endpoint clears a
    field. *)
Theorem updateProfile_keeps_what_it_is_not_given
    (fresh email : string) (payload : document) (s : db) (d : document)
    (k : string) :
  Mongo.findOne (Mongo.FEq "email" (Some (VStr email))) (usersCollection s)
    = Some d →
  profile_field k = false ∨ js_truthy (payload !! k) = false →
  ∃ d',
    Mongo.findOne (Mongo.FEq "email" (Some (VStr email)))
      (usersCollection (snd (post_users_email fresh email payload s)))
      = Some d'
    ∧ d' !! k = d !! k.
Proof.
  intros Hd Hskip. eexists. split; [apply post_users_email_stored |].
  rewrite Hd. unfold Mongo.apply_set. apply lookup_union_r.
  rewrite profile_fields_lookup.
  destruct Hskip as [-> | ->]; [done | by rewrite andb_false_r].
Qed.

Lemma updateProfile_keeps_what_it_is_not_given_witness :
  ∃ d',
    Mongo.findOne (Mongo.FEq "email" (Some (VStr Sample.root_email)))
      (usersCollection
         (snd (post_users_email Sample.generated Sample.root_email
                 {[ "phoneNumber" := VStr ""; "role" := VStr "user" ]}
                 Sample.store)))
      = Some d'
    ∧ d' !! "phoneNumber" = Some (VStr "+8801700000000").
Proof.
  destruct (updateProfile_keeps_what_it_is_not_given Sample.generated
              Sample.root_email
              {[ "phoneNumber" := VStr ""; "role" := VStr "user" ]}
              Sample.store Sample.root "phoneNumber")
    as (d' & Hd' & Hk); [vm_compute; reflexivity | right; reflexivity |].
  exists d'. split; [exact Hd' | by rewrite Hk].
Defined.

(** ** Inserting and upserting users *)



(** [PUT /users] is idempotent: the same valid user document sent a second
    time matches one document, modifies none, upserts none, and leaves the
    database as the first request left it. *)
Theorem upsert_twice_changes_nothing
    (fresh fresh' email : string) (u : document) (s : db) :
  valid_user u email →
  let s1 := snd (put_users fresh u s) in
  put_users fresh' u s1
  = (mkResponse 200 (JUpdateResult (Mongo.mkUpdateResult 1 0 0 None)), s1).
Proof.
  intros Hvalid.
  set (f := Mongo.FEq "email" (Some (VStr email))).
  assert (∃ c d,
    snd (put_users fresh u s)
      = mkDb c (testimonialCollection s) (proposalsCollection s)
    ∧ Mongo.findOne f c = Some d
    ∧ Mongo.apply_set u d = d) as (c & d & Hs1 & Hd & Hsame).
  { rewrite (put_users_valid fresh u email s Hvalid). fold f.
    destruct Hvalid as [He Hid].
    destruct (Mongo.findOne f (usersCollection s)) as [d|] eqn:Hf;
      eexists _, _; (split_and!; [done | |]).
    - apply findOne_set_first; [done |].
      unfold f. rewrite matches_FEq_str. apply bool_decide_eq_true_2.
      by apply lookup_union_Some_l.
    - unfold Mongo.apply_set.
      by rewrite (assoc_L (∪)), (idemp_L (∪)).
    - apply findOne_app_None; [done |].
      unfold f. rewrite matches_FEq_str. apply bool_decide_eq_true_2.
      by rewrite lookup_insert_ne.
    - unfold Mongo.apply_set. apply map_subseteq_union.
      by apply insert_subseteq. }
  intros s1. subst s1. rewrite Hs1.
  rewrite (put_users_valid fresh' u email _ Hvalid).
  cbn [usersCollection testimonialCollection proposalsCollection].
  fold f. rewrite Hd, (proj2 (set_first_id f u c d Hd) Hsame).
  by rewrite bool_decide_eq_true_2.
Qed.

Lemma upsert_twice_changes_nothing_witness :
  valid_user Sample.root_again Sample.root_email
  ∧ put_users "66b2f0a1c3d4e5f601234568" Sample.root_again
      (snd (put_users Sample.generated Sample.root_again Sample.store))
    = (mkResponse 200 (JUpdateResult (Mongo.mkUpdateResult 1 0 0 None)),
       snd (put_users Sample.generated Sample.root_again Sample.store)).
Proof.
  assert (valid_user Sample.root_again Sample.root_email) as Hvalid
    by (split; vm_compute; reflexivity).
  split; [exact Hvalid |].
  exact (upsert_twice_changes_nothing Sample.generated
           "66b2f0a1c3d4e5f601234568" Sample.root_email Sample.root_again
           Sample.store Hvalid).
Defined.

(** ** Unique [_id]s *)

(** The handlers keep [_id]s unique: if no two users and no two
    testimonials share an [_id] and the id generated for the request is
    not in use, the same holds after the request, whichever it is. *)
Theorem handlers_keep_ids_unique
    (fresh : string) (r : request) (s : db) :
  Mongo.id_in_use (VOid fresh) (usersCollection s) = false →
  Mongo.id_in_use (VOid fresh) (testimonialCollection s) = false →
  ids_unique (usersCollection s) →
  ids_unique (testimonialCollection s) →
  ids_unique (usersCollection (snd (handle fresh r s)))
  ∧ ids_unique (testimonialCollection (snd (handle fresh r s))).
Proof.
  intros Hfu Hft Hu Ht.
  pose proof (handle_frame fresh r s) as Hframe.
  cbv zeta in Hframe. destruct Hframe as (Husers & Htestimonials & _).
  destruct r as [b|b|e|e|e b|e|b|b|b|e|q]; cbn [written] in *;
    try (rewrite Husers, Htestimonials by done; by split).
  - rewrite Htestimonials by done. split; [| done]. clear Husers Htestimonials.
    cbn [handle]. unfold post_users. run_handler.
    destruct (Mongo.insertOne fresh b (usersCollection s)) as [[res c]|] eqn:Hi;
      cbn [snd usersCollection]; [| done].
    by apply (insertOne_ids_unique _ _ _ _ _ Hi).
  - rewrite Htestimonials by done. split; [| done]. clear Husers Htestimonials.
    cbn [handle]. unfold put_users. run_handler.
    destruct (Mongo.updateOne fresh _ b (usersCollection s))
      as [[res c]|] eqn:Hi; cbn [snd usersCollection]; [| done].
    by apply (updateOne_ids_unique _ _ _ _ _ _ Hi).
  - rewrite Htestimonials by done. split; [| done]. clear Husers Htestimonials.
    cbn [handle]. unfold post_users_email. run_handler.
    destruct (Mongo.updateOne fresh _ _ (usersCollection s))
      as [[res c]|] eqn:Hi; [| done].
    destruct (_ || _); cbn [snd usersCollection];
      by apply (updateOne_ids_unique _ _ _ _ _ _ Hi).
  - rewrite Husers by done. split; [done |]. clear Husers Htestimonials.
    cbn [handle]. unfold put_testimonialapprove. run_handler.
    destruct (is_admin _); [| done].
    destruct (ObjectId_new fresh (b !! "id")) as [oid|]; [| done].
    destruct (Mongo.updateOne fresh _ _ (testimonialCollection s))
      as [[res c]|] eqn:Hi; [| done].
    cbn [Datatypes.fst Datatypes.snd].
    destruct (_ || _); cbn [snd testimonialCollection];
      by apply (updateOne_ids_unique _ _ _ _ _ _ Hi).
  - rewrite Husers by done. split; [done |]. clear Husers Htestimonials.
    cbn [handle]. unfold delete_testimonialapprove. run_handler.
    destruct (is_admin _); [| done].
    destruct (ObjectId_new fresh (b !! "id")) as [oid|]; [| done].
    unfold Mongo.deleteOne.
    destruct (Mongo.findOne _ (testimonialCollection s)); [| done].
    cbn. by apply ids_unique_remove_first.
  - rewrite Husers by done. split; [done |]. clear Husers Htestimonials.
    cbn [handle]. unfold post_testimonial. run_handler.
    destruct (Mongo.insertOne fresh b (testimonialCollection s))
      as [[res c]|] eqn:Hi; cbn [snd testimonialCollection]; [| done].
    by apply (insertOne_ids_unique _ _ _ _ _ Hi).
Qed.

Lemma handlers_keep_ids_unique_witness :
  ids_unique (usersCollection Sample.store)
  ∧ ids_unique (testimonialCollection Sample.store)
  ∧ ids_unique
      (usersCollection
         (snd (handle Sample.generated (POST_users Sample.self_made_admin)
                 Sample.store))).
Proof.
  assert (ids_unique (usersCollection Sample.store)) as Hu.
  { unfold ids_unique.
    refine (bool_decide_unpack
              (NoDup (ids (usersCollection Sample.store))) _).
    vm_compute. exact I. }
  assert (ids_unique (testimonialCollection Sample.store)) as Ht.
  { unfold ids_unique.
    refine (bool_decide_unpack
              (NoDup (ids (testimonialCollection Sample.store))) _).
    vm_compute. exact I. }
  split; [exact Hu | split; [exact Ht |]].
  refine (proj1 (handlers_keep_ids_unique Sample.generated
                   (POST_users Sample.self_made_admin) Sample.store
                   _ _ Hu Ht)); vm_compute; reflexivity.
Defined.

(** ** Upload file names *)

Section FilenameFacts.

Import DecimalString.
Import Stdlib.Strings.Ascii.

Lemma string_app_assoc (s1 s2 s3 : string) :
  (s1 +:+ s2) +:+ s3 = s1 +:+ (s2 +:+ s3).
Proof.
  induction s1 as [|a s1 IH]; [done |].
  change (String a ((s1 +:+ s2) +:+ s3) = String a (s1 +:+ (s2 +:+ s3))).
  by rewrite IH.
Qed.

Lemma dash_app (t : string) : "-" +:+ t = String "-"%char t.
Proof. reflexivity. Qed.

(** A printed number ends where the first ["-"] stands. *)
Lemma printed_number_split (d d' : Decimal.uint) (rest rest' : string) :
  NilEmpty.string_of_uint d +:+ String "-"%char rest
  = NilEmpty.string_of_uint d' +:+ String "-"%char rest' →
  d = d' ∧ rest = rest'.
Proof.
  revert d'. induction d as [|d IH|d IH|d IH|d IH|d IH|d IH|d IH|d IH|d IH|d IH];
    intros [|d'|d'|d'|d'|d'|d'|d'|d'|d'|d'];
    cbn [NilEmpty.string_of_uint];
    change (String ?a ?s +:+ ?t) with (String a (s +:+ t));
    change ("" +:+ ?t) with t;
    intros Heq; try discriminate Heq;
    try (injection Heq as Heq; destruct (IH _ Heq) as [-> ->]; done).
  by injection Heq as ->.
Qed.

Lemma decimal_split (n n' : N) (rest rest' : string) :
  decimal n +:+ String "-"%char rest = decimal n' +:+ String "-"%char rest' →
  n = n' ∧ rest = rest'.
Proof.
  unfold decimal. intros [Hd ->]%printed_number_split.
  split; [| done]. by apply DecimalN.Unsigned.to_uint_inj.
Qed.

End FilenameFacts.

(** Uploads collide only if everything coincides: two files stored under
    the same field get the same name only when [Date.now()], the rounded
    random number and the original name are all the same.  In particular
    two uploads of one file in different milliseconds, or with different
    random numbers, are stored under different names. *)
Theorem filename_injective
    (fieldname : string) (now now' random random' : N)
    (originalname originalname' : string) :
  filename fieldname now random originalname
  = filename fieldname now' random' originalname' →
  now = now' ∧ random = random' ∧ originalname = originalname'.
Proof.
  unfold filename. cbv zeta. intros Heq.
  apply (inj (String.app fieldname)) in Heq.
  apply (inj (String.app "-")) in Heq.
  rewrite !string_app_assoc in Heq.
  rewrite !dash_app in Heq.
  apply decimal_split in Heq as [-> Heq].
  apply decimal_split in Heq as [-> ->]. done.
Qed.

Lemma filename_injective_witness :
  filename "file" 1730534400000 123456789 "brief.pdf"
    = "file-1730534400000-123456789-brief.pdf"
  ∧ (filename "file" 1730534400000 123456789 "brief.pdf"
     = filename "file" 1730534400000 123456780 "brief.pdf" → False).
Proof.
  split; [vm_compute; reflexivity |].
  intros Heq. apply filename_injective in Heq as (_ & Hr & _).
  discriminate Hr.
Defined.
